(** * Slack RTM session negotiation and manager construction

    A shallow embedding of [vendor/github.com/essentialkaos/slack/rtm.go]:
    the four negotiation entry points ([StartRTM], [StartRTMContext],
    [ConnectRTM], [ConnectRTMContext]) and the two manager constructors
    ([NewRTM], [NewRTMWithOptions]).

    Conventions.
    - Go [int] and [time.Duration] values are [Z]; the only arithmetic in
      the file is the constant expression [10 * time.Second].
    - A pointer result that may be [nil] is an [option]; a value of the
      [error] interface is [option error], [None] being the nil interface.
    - A channel, a map and a mutex are represented by their contents: they
      are created fresh by the constructor and nothing else refers to them.
    - The negotiation methods run in a state monad over a [World] that holds
      the receiver [*api], the network the request goes to, the logger and
      the armed context timers. *)

From Stdlib Require Import ZArith Sorted.
From stdpp Require Import base gmap strings list.

Local Open Scope Z_scope.
Local Open Scope string_scope.

(** ** Package [time] *)

Module time.
(** [time.Duration] is an [int64] count of nanoseconds. *)
Definition Duration : Type := Z.
Definition Nanosecond : Duration := 1.
Definition Microsecond : Duration := 1000 * Nanosecond.
Definition Millisecond : Duration := 1000 * Microsecond.
Definition Second : Duration := 1000 * Millisecond.

(** [time.Time], an instant; only stored, never computed with here. *)
Definition Time : Type := Z.

Definition min_int64 : Z := - 2 ^ 63.
Definition max_int64 : Z := 2 ^ 63 - 1.
End time.

(** ** Package [context] *)

Module context.
(** The contexts a caller can build.  [WithTimeout parent d] stands for
    the context whose deadline lies [d] after its creation. *)
Inductive Context : Type :=
| Background
| WithCancel (parent : Context)
| WithTimeout (parent : Context) (timeout : time.Duration).

(** The timeouts found on the chain from a context to its root, the
    innermost first. *)
Fixpoint timeouts (ctx : Context) : list time.Duration :=
  match ctx with
  | Background => []
  | WithCancel parent => timeouts parent
  | WithTimeout parent d => d :: timeouts parent
  end.
End context.

Import context.

(** rtm.go, lines 11-13. *)
Definition WEBSOCKET_DEFAULT_TIMEOUT : time.Duration := 10 * time.Second.

(** ** The identifier generator *)

(** Modelled from the spec: the state of the identifier generator, whose
    type is declared outside rtm.go.  Section 4.2 gives it one piece of
    state, the integer it hands out next, which "grows unboundedly". *)
Record safeID : Type := mkSafeID { nextID : Z }.

(** Modelled from the spec: the constructor [NewSafeID], declared outside
    rtm.go.  Section 4.2: the sequence "starts at a configurable seed". *)
Definition NewSafeID (startID : Z) : safeID := {| nextID := startID |}.

(** Modelled from the spec: the method [Next], declared outside rtm.go.
    Section 4.2: "next() -> integer, strictly increasing, starts at a
    configurable seed". *)
Definition Next (s : safeID) : Z * safeID :=
  (nextID s, {| nextID := nextID s + 1 |}).

(** [n] successive calls of [Next]: the identifiers in the order they were
    handed out, and the generator left behind. *)
Fixpoint Nexts (n : nat) (s : safeID) : list Z * safeID :=
  match n with
  | O => ([], s)
  | S n' =>
    let '(id, s') := Next s in
    let '(ids, s'') := Nexts n' s' in
    (id :: ids, s'')
  end.

(** ** Channels and the mutex *)

(** A channel: its capacity, the elements queued in it and whether it has
    been closed. *)
Record chan (T : Type) : Type := mkChan {
  cap : Z;
  queue : list T;
  closed : bool
}.
Arguments mkChan {T}.
Arguments cap {T}.
Arguments queue {T}.
Arguments closed {T}.

(** [make(chan T, n)]; [make(chan T)] is the case [n = 0]. *)
Definition make_chan (T : Type) (n : Z) : chan T :=
  {| cap := n; queue := []; closed := false |}.

(** [sync.Mutex]; its zero value is unlocked. *)
Record Mutex : Type := mkMutex { locked : bool }.
Definition Mutex_zero : Mutex := {| locked := false |}.

(** ** Declarations of the package that live outside rtm.go

    rtm.go uses these types and helpers of package [slack] without
    declaring them; they are parameters of the development. *)

Class Declarations : Type := {
  (** [Client.Config] and the request parameters [Config.toParams()]. *)
  Config : Type;
  Params : Type;
  toParams : Config -> Params;
  (** [Client], with the two fields rtm.go reads. *)
  Client : Type;
  Client_Config : Client -> Config;
  Client_debug : Client -> bool;
  (** [Info], with its [URL] field and its zero value. *)
  Info : Type;
  Info_URL : Info -> string;
  Info_zero : Info;
  (** The type of [WebResponse.Error], its zero value and its [Error()]. *)
  AppError : Type;
  AppError_zero : AppError;
  AppError_Error : AppError -> string;
  (** Any other dynamic type behind an [error] (net, http, json, ...). *)
  ForeignError : Type;
  ForeignError_Error : ForeignError -> string;
  (** [RTMOptions], with the field rtm.go reads. *)
  RTMOptions : Type;
  UseRTMStart : RTMOptions -> bool;
  (** Element types of the manager's channels. *)
  RTMEvent : Type;
  OutgoingMessage : Type;
  RawMessage : Type;
  (** What lies outside the process: the API server and the log sink. *)
  Net : Type;
  Logger : Type
}.

Section Slack.
Context `{D : Declarations}.

(** Values of the [error] interface, by dynamic type.  [WebResponse.Error]
    is decoded from the reply, so its static type is a concrete one:
    converting it to [error] gives a non-nil interface value, [ErrApp],
    whatever it holds. *)
Inductive error : Type :=
| ErrFmt (msg : string)        (* built by [fmt.Errorf] *)
| ErrApp (e : AppError)        (* a [WebResponse.Error] *)
| ErrForeign (e : ForeignError).

(** The [Error()] method. *)
Definition Error (e : error) : string :=
  match e with
  | ErrFmt msg => msg
  | ErrApp a => AppError_Error a
  | ErrForeign f => ForeignError_Error f
  end.

(** [fmt.Errorf("post: %s", err)]: the verb [%s] formats an error by its
    [Error()] text. *)
Definition Errorf_post (err : error) : error :=
  ErrFmt ("post: " +:+ Error err).

(** [WebResponse] and [infoResponseFull] (which embeds [Info] and
    [WebResponse]). *)
Record WebResponse : Type := mkWebResponse {
  Ok : bool;
  WebResponse_Error : AppError
}.

Record infoResponseFull : Type := mkInfoResponseFull {
  response_Info : Info;
  response_WebResponse : WebResponse
}.

(** [&infoResponseFull{}] *)
Definition infoResponseFull_zero : infoResponseFull :=
  {| response_Info := Info_zero;
     response_WebResponse := {| Ok := false; WebResponse_Error := AppError_zero |} |}.

(** The helpers rtm.go calls.  [post] is handed values only (the context,
    the path, the parameters, the response to fill in and the debug flag):
    it acts on the network and yields its error and the response as it left
    it.  [Debugln] and [Debugf] read their receiver and write to the
    logger. *)
Class Collaborators : Type := {
  post : Context -> string -> Params -> infoResponseFull -> bool ->
         Net -> (option error * infoResponseFull) * Net;
  Debugln : Client -> list string -> Logger -> Logger;
  Debugf : Client -> string -> list string -> Logger -> Logger
}.

Context `{K : Collaborators}.

(** ** The world a negotiation call runs in *)

Record World : Type := mkWorld {
  client : Client;                  (* the receiver, [*api] *)
  net : Net;
  logger : Logger;
  timers : list time.Duration       (* armed context timers, newest first *)
}.

Definition M (A : Type) : Type := World -> A * World.

Definition ret {A} (a : A) : M A := fun w => (a, w).

Definition bind {A B} (m : M A) (k : A -> M B) : M B :=
  fun w => let '(a, w') := m w in k a w'.

#[local] Instance M_ret : MRet M := @ret.
#[local] Instance M_bind : MBind M := fun A B k m => bind m k.

(** Reading the receiver. *)
Definition get_api : M Client := fun w => (client w, w).

(** A call of [post]. *)
Definition call_post (ctx : Context) (path : string) (values : Params)
    (response : infoResponseFull) (debug : bool)
    : M (option error * infoResponseFull) :=
  fun w =>
    let '(r, n) := post ctx path values response debug (net w) in
    (r, {| client := client w; net := n; logger := logger w; timers := timers w |}).

(** Calls of [api.Debugln] and [api.Debugf]. *)
Definition call_Debugln (args : list string) : M unit :=
  fun w =>
    (tt, {| client := client w; net := net w;
            logger := Debugln (client w) args (logger w); timers := timers w |}).

Definition call_Debugf (format : string) (args : list string) : M unit :=
  fun w =>
    (tt, {| client := client w; net := net w;
            logger := Debugf (client w) format args (logger w); timers := timers w |}).

(** Disarming one timer: the first one with that duration. *)
Fixpoint disarm (d : time.Duration) (ts : list time.Duration) : list time.Duration :=
  match ts with
  | [] => []
  | t :: ts' => if Z.eqb t d then ts' else t :: disarm d ts'
  end.

(** [context.WithTimeout(parent, d)]: arms a timer and yields the derived
    context with its cancel function, which disarms the timer. *)
Definition cancel_timeout (d : time.Duration) : M unit :=
  fun w =>
    (tt, {| client := client w; net := net w; logger := logger w;
            timers := disarm d (timers w) |}).

Definition context_WithTimeout (parent : Context) (d : time.Duration)
    : M (Context * M unit) :=
  fun w =>
    ((WithTimeout parent d, cancel_timeout d),
     {| client := client w; net := net w; logger := logger w;
        timers := d :: timers w |}).

(** ** Session negotiation *)

(** What a negotiation call returns: [(info *Info, websocketURL string, err error)]. *)
Definition Negotiated : Type := option Info * string * option error.

(** rtm.go, lines 29-48. *)
Definition StartRTMContext (ctx : Context) : M Negotiated :=
  api ← get_api;
  let response := infoResponseFull_zero in
  '(err, response) ←
    call_post ctx "rtm.start" (toParams (Client_Config api)) response (Client_debug api);
  match err with
  | Some e => ret (None, "", Some (Errorf_post e))
  | None =>
    if negb (Ok (response_WebResponse response)) then
      ret (None, "", Some (ErrApp (WebResponse_Error (response_WebResponse response))))
    else
      call_Debugln ["Using URL:"; Info_URL (response_Info response)];;
      ret (Some (response_Info response), Info_URL (response_Info response), None)
  end.

(** rtm.go, lines 18-24.  The deferred [cancel()] runs once the result of
    [StartRTMContext] is known. *)
Definition StartRTM : M Negotiated :=
  '(ctx, cancel) ← context_WithTimeout Background WEBSOCKET_DEFAULT_TIMEOUT;
  r ← StartRTMContext ctx;
  cancel;;
  ret r.

(** rtm.go, lines 64-83. *)
Definition ConnectRTMContext (ctx : Context) : M Negotiated :=
  api ← get_api;
  let response := infoResponseFull_zero in
  '(err, response) ←
    call_post ctx "rtm.connect" (toParams (Client_Config api)) response (Client_debug api);
  match err with
  | Some e =>
    call_Debugf "Failed to connect to RTM: %s" [Error e];;
    ret (None, "", Some (Errorf_post e))
  | None =>
    if negb (Ok (response_WebResponse response)) then
      ret (None, "", Some (ErrApp (WebResponse_Error (response_WebResponse response))))
    else
      call_Debugln ["Using URL:"; Info_URL (response_Info response)];;
      ret (Some (response_Info response), Info_URL (response_Info response), None)
  end.

(** rtm.go, lines 53-59. *)
Definition ConnectRTM : M Negotiated :=
  '(ctx, cancel) ← context_WithTimeout Background WEBSOCKET_DEFAULT_TIMEOUT;
  r ← ConnectRTMContext ctx;
  cancel;;
  ret r.

(** ** The connection manager *)

(** [RTM], with the fields rtm.go names.  A field the composite literal of
    [NewRTMWithOptions] leaves out holds its zero value; [useRTMStart] is
    the one such field rtm.go goes on to assign. *)
Record RTM : Type := mkRTM {
  RTM_Client : Client;
  IncomingEvents : chan RTMEvent;
  outgoingMessages : chan OutgoingMessage;
  pings : gmap Z time.Time;
  isConnected : bool;
  wasIntentional : bool;
  killChannel : chan bool;
  disconnected : chan unit;
  forcePing : chan bool;
  rawEvents : chan RawMessage;
  idGen : safeID;
  mu : Mutex;
  useRTMStart : bool
}.

(** [result.useRTMStart = b] *)
Definition set_useRTMStart (b : bool) (r : RTM) : RTM :=
  {| RTM_Client := RTM_Client r;
     IncomingEvents := IncomingEvents r;
     outgoingMessages := outgoingMessages r;
     pings := pings r;
     isConnected := isConnected r;
     wasIntentional := wasIntentional r;
     killChannel := killChannel r;
     disconnected := disconnected r;
     forcePing := forcePing r;
     rawEvents := rawEvents r;
     idGen := idGen r;
     mu := mu r;
     useRTMStart := b |}.

(** rtm.go, lines 94-115.  [options] is a pointer: [None] is [nil]. *)
Definition NewRTMWithOptions (api : Client) (options : option RTMOptions) : RTM :=
  let result :=
    {| RTM_Client := api;
       IncomingEvents := make_chan RTMEvent 50;
       outgoingMessages := make_chan OutgoingMessage 20;
       pings := ∅;
       isConnected := false;
       wasIntentional := true;
       killChannel := make_chan bool 0;
       disconnected := make_chan unit 0;
       forcePing := make_chan bool 0;
       rawEvents := make_chan RawMessage 0;
       idGen := NewSafeID 1;
       mu := Mutex_zero;
       useRTMStart := false |} in
  if match options with
     | None => false
     | Some o => UseRTMStart o
     end
  then set_useRTMStart true result
  else result.

(** rtm.go, lines 87-89. *)
Definition NewRTM (api : Client) : RTM := NewRTMWithOptions api None.

End Slack.

(** ** A concrete instance: a scripted API server

    The server is a script of replies, one per request; [post] consumes the
    head of the script.  The instance is used to run the negotiation calls
    on concrete inputs. *)

Module Scripted.

Inductive Reply : Type :=
| Unreachable (reason : string)   (* the request never completes *)
| Rejected (code : string)        (* answered with [ok = false] *)
| Accepted (url : string).        (* answered with [ok = true] *)

Record ClientData : Type := mkClient { token : string; debug : bool }.

#[export] Instance declarations : Declarations := {|
  Config := string;
  Params := list (string * string);
  toParams := fun tok => [("token", tok)];
  Client := ClientData;
  Client_Config := token;
  Client_debug := debug;
  Info := string;
  Info_URL := fun url => url;
  Info_zero := "";
  AppError := string;
  AppError_zero := "";
  AppError_Error := fun code => code;
  ForeignError := string;
  ForeignError_Error := fun reason => reason;
  RTMOptions := bool;
  UseRTMStart := fun b => b;
  RTMEvent := string;
  OutgoingMessage := string;
  RawMessage := string;
  Net := list Reply;
  Logger := list string
|}.

(** The response as the server fills it in. *)
Definition rejected_response (response : infoResponseFull) (code : string)
    : infoResponseFull :=
  {| response_Info := response_Info response;
     response_WebResponse := {| Ok := false; WebResponse_Error := code |} |}.

Definition accepted_response (url : string) : infoResponseFull :=
  {| response_Info := url;
     response_WebResponse := {| Ok := true; WebResponse_Error := AppError_zero |} |}.

Definition scripted_post (ctx : Context) (path : string)
    (values : list (string * string)) (response : infoResponseFull)
    (dbg : bool) (script : list Reply)
    : (option error * infoResponseFull) * list Reply :=
  match script with
  | [] => ((Some (ErrForeign "connection refused"), response), [])
  | Unreachable reason :: rest => ((Some (ErrForeign reason), response), rest)
  | Rejected code :: rest => ((None, rejected_response response code), rest)
  | Accepted url :: rest => ((None, accepted_response url), rest)
  end.

Definition log_line (c : ClientData) (line : string) (l : list string) : list string :=
  if debug c then l ++ [line] else l.

#[export] Instance collaborators : Collaborators := {|
  post := scripted_post;
  Debugln := fun c args l => log_line c (String.concat " " args) l;
  Debugf := fun c format args l => log_line c (String.concat " " (format :: args)) l
|}.

Definition bot : ClientData := {| token := "xoxb-1"; debug := true |}.

(** A world whose server plays the given script. *)
Definition world (script : list Reply) : World :=
  {| client := bot; net := script; logger := []; timers := [] |}.

End Scripted.

(** ** Properties of the negotiation calls *)

Section Negotiation.
Context `{D : Declarations} `{K : !Collaborators}.

(** The request a negotiation call sends to [path], as [post] sees it. *)
Definition request (ctx : Context) (path : string) (w : World)
    : (option error * infoResponseFull) * Net :=
  post ctx path (toParams (Client_Config (client w))) infoResponseFull_zero
       (Client_debug (client w)) (net w).

(** Unfolds the monadic plumbing of a negotiation call. *)
Ltac run_negotiation :=
  unfold StartRTM, ConnectRTM, StartRTMContext, ConnectRTMContext,
    context_WithTimeout, cancel_timeout, call_post, call_Debugln, call_Debugf,
    get_api, request, mbind, M_bind, bind, ret in *;
  cbn [client net logger timers fst snd] in *.

Lemma disarm_newest (d : time.Duration) (ts : list time.Duration) :
  disarm d (d :: ts) = ts.
Proof. cbn [disarm]. now rewrite Z.eqb_refl. Qed.

(** C1. When the server answers a negotiation request with [ok = false],
    [StartRTMContext] and [ConnectRTMContext] return a nil Info, the empty
    URL and, as the error, the very [Error] value of the response. *)
Theorem rejection_returned_verbatim (ctx : Context) (w : World) :
  (forall resp n,
     request ctx "rtm.start" w = ((None, resp), n) ->
     Ok (response_WebResponse resp) = false ->
     (StartRTMContext ctx w).1
       = (None, "", Some (ErrApp (WebResponse_Error (response_WebResponse resp)))))
  /\
  (forall resp n,
     request ctx "rtm.connect" w = ((None, resp), n) ->
     Ok (response_WebResponse resp) = false ->
     (ConnectRTMContext ctx w).1
       = (None, "", Some (ErrApp (WebResponse_Error (response_WebResponse resp))))).
Proof.
  split; intros resp n Hpost Hok; run_negotiation;
    rewrite Hpost; cbn; now rewrite Hok.
Qed.

(** C2. [StartRTM] and [ConnectRTM] run their context-taking variant under
    a context derived from [Background] whose only timeout is
    [WEBSOCKET_DEFAULT_TIMEOUT], that is 10 seconds (10^10 ns, an [int64]),
    and yield the same result and the same world as that variant. *)
Theorem default_timeout_entry_points (w : World) :
  WEBSOCKET_DEFAULT_TIMEOUT = 10 * time.Second
  /\ WEBSOCKET_DEFAULT_TIMEOUT = 10000000000
  /\ time.min_int64 <= WEBSOCKET_DEFAULT_TIMEOUT <= time.max_int64
  /\ timeouts (WithTimeout Background WEBSOCKET_DEFAULT_TIMEOUT) = [10 * time.Second]
  /\ StartRTM w = StartRTMContext (WithTimeout Background WEBSOCKET_DEFAULT_TIMEOUT) w
  /\ ConnectRTM w = ConnectRTMContext (WithTimeout Background WEBSOCKET_DEFAULT_TIMEOUT) w.
Proof.
  split; [reflexivity|]. split; [reflexivity|].
  split; [split; discriminate|]. split; [reflexivity|].
  split; run_negotiation;
    destruct (post _ _ _ _ _ _) as [[[e|] resp] n];
    cbn [client net logger timers];
    try destruct (Ok _); cbn [negb client net logger timers];
    now rewrite disarm_newest.
Qed.

(** C3. When the server answers with [ok = true], [StartRTMContext] (which
    requests "rtm.start") and [ConnectRTMContext] (which requests
    "rtm.connect") return the Info of the response, its [URL] field
    unchanged as the websocket URL, and a nil error. *)
Theorem success_returns_info_and_its_url (ctx : Context) (w : World) :
  (forall resp n,
     request ctx "rtm.start" w = ((None, resp), n) ->
     Ok (response_WebResponse resp) = true ->
     (StartRTMContext ctx w).1
       = (Some (response_Info resp), Info_URL (response_Info resp), None))
  /\
  (forall resp n,
     request ctx "rtm.connect" w = ((None, resp), n) ->
     Ok (response_WebResponse resp) = true ->
     (ConnectRTMContext ctx w).1
       = (Some (response_Info resp), Info_URL (response_Info resp), None)).
Proof.
  split; intros resp n Hpost Hok; run_negotiation;
    rewrite Hpost; cbn; now rewrite Hok.
Qed.

(** C4. When [post] itself fails with an error [e], [StartRTMContext] and
    [ConnectRTMContext] return a nil Info, the empty URL and a non-nil error
    whose text is "post: " followed by the text of [e]; that error is never
    the application error of a response. *)
Theorem transport_failure_is_prefixed (ctx : Context) (w : World) :
  (forall e resp n,
     request ctx "rtm.start" w = ((Some e, resp), n) ->
     exists err,
       (StartRTMContext ctx w).1 = (None, "", Some err)
       /\ Error err = "post: " +:+ Error e
       /\ forall a, err <> ErrApp a)
  /\
  (forall e resp n,
     request ctx "rtm.connect" w = ((Some e, resp), n) ->
     exists err,
       (ConnectRTMContext ctx w).1 = (None, "", Some err)
       /\ Error err = "post: " +:+ Error e
       /\ forall a, err <> ErrApp a).
Proof.
  split; intros e resp n Hpost; exists (Errorf_post e);
    (split; [run_negotiation; now rewrite Hpost|]);
    (split; [reflexivity|]); intros a; discriminate.
Qed.

(** C9. A negotiation call leaves the receiver as it found it, whatever the
    context, the world and the outcome of the request. *)
Theorem negotiation_preserves_client (ctx : Context) (w : World) :
  client (StartRTMContext ctx w).2 = client w
  /\ client (ConnectRTMContext ctx w).2 = client w.
Proof.
  split; run_negotiation;
    destruct (post _ _ _ _ _ _) as [[[e|] resp] n]; cbn;
    try destruct (Ok _); reflexivity.
Qed.

End Negotiation.

(** ** Properties of the identifier generator *)

(** [n] calls hand out the [n] consecutive integers from the seed on. *)
Lemma Nexts_ids (n : nat) (s : safeID) :
  (Nexts n s).1 = seqZ (nextID s) (Z.of_nat n).
Proof.
  revert s. induction n as [|n IH]; intros s; [reflexivity|].
  cbn [Nexts Next].
  specialize (IH {| nextID := nextID s + 1 |}).
  destruct (Nexts n _) as [ids s'']. cbn [fst nextID] in *.
  rewrite seqZ_cons by lia. rewrite IH.
  f_equal. f_equal; lia.
Qed.

Lemma Nexts_increasing (n : nat) (s : safeID) :
  StronglySorted Z.lt (Nexts n s).1.
Proof.
  rewrite Nexts_ids. generalize (nextID s) as m.
  induction n as [|n IH]; intros m.
  - rewrite seqZ_nil by lia. constructor.
  - rewrite seqZ_cons by lia.
    replace (Z.pred (Z.of_nat (S n))) with (Z.of_nat n) by lia.
    constructor; [apply IH|].
    apply Forall_seqZ. intros m' Hm'. lia.
Qed.

(** ** Properties of the manager constructors *)

Section Manager.
Context `{D : Declarations}.

(** The composite literal of [NewRTMWithOptions] decides every field but
    [useRTMStart]. *)
Lemma NewRTMWithOptions_fields (api : Client) (options : option RTMOptions) :
  NewRTMWithOptions api options
  = set_useRTMStart (useRTMStart (NewRTMWithOptions api options))
      (NewRTMWithOptions api None).
Proof.
  unfold NewRTMWithOptions.
  destruct options as [o|]; [destruct (UseRTMStart o)|]; reflexivity.
Qed.

(** C5. A manager fresh from [NewRTM] or [NewRTMWithOptions] is not
    connected, has [wasIntentional] set, and has no outstanding ping: its
    ping map is empty, so no identifier has an entry in it. *)
Theorem new_manager_initial_state (api : Client) (options : option RTMOptions) :
  (isConnected (NewRTMWithOptions api options) = false
   /\ wasIntentional (NewRTMWithOptions api options) = true
   /\ pings (NewRTMWithOptions api options) = ∅
   /\ forall id : Z, pings (NewRTMWithOptions api options) !! id = None)
  /\
  (isConnected (NewRTM api) = false
   /\ wasIntentional (NewRTM api) = true
   /\ pings (NewRTM api) = ∅
   /\ forall id : Z, pings (NewRTM api) !! id = None).
Proof.
  unfold NewRTM. split.
  - rewrite NewRTMWithOptions_fields. cbn.
    repeat split; intros id; apply lookup_empty.
  - cbn. repeat split; intros id; apply lookup_empty.
Qed.

(** C6. A manager fresh from [NewRTM] or [NewRTMWithOptions] has an
    incoming-event channel of capacity 50 and an outgoing-message channel
    of capacity 20, both empty and open. *)
Theorem new_manager_queue_capacities (api : Client) (options : option RTMOptions) :
  (IncomingEvents (NewRTMWithOptions api options) = make_chan RTMEvent 50
   /\ cap (IncomingEvents (NewRTMWithOptions api options)) = 50
   /\ outgoingMessages (NewRTMWithOptions api options) = make_chan OutgoingMessage 20
   /\ cap (outgoingMessages (NewRTMWithOptions api options)) = 20)
  /\
  (cap (IncomingEvents (NewRTM api)) = 50
   /\ cap (outgoingMessages (NewRTM api)) = 20).
Proof.
  unfold NewRTM. split.
  - rewrite NewRTMWithOptions_fields. cbn. repeat split.
  - cbn. repeat split.
Qed.

(** C7. [NewRTMWithOptions] sets [useRTMStart] exactly when it is given
    options (a non-nil pointer) whose [UseRTMStart] field is true: without
    options the flag is false, with options it is the value of the field. *)
Theorem useRTMStart_follows_options (api : Client) (options : option RTMOptions) :
  (useRTMStart (NewRTMWithOptions api options) = true
   <-> exists o, options = Some o /\ UseRTMStart o = true)
  /\ useRTMStart (NewRTMWithOptions api None) = false
  /\ (forall o, useRTMStart (NewRTMWithOptions api (Some o)) = UseRTMStart o).
Proof.
  split; [|split].
  - unfold NewRTMWithOptions. destruct options as [o|].
    + destruct (UseRTMStart o) eqn:Ho; cbn.
      * split; [intros _; now exists o | reflexivity].
      * split; [discriminate | intros (o' & Heq & Ho'); congruence].
    + cbn. split; [discriminate | intros (o' & Heq & _); discriminate].
  - reflexivity.
  - intros o. unfold NewRTMWithOptions. now destruct (UseRTMStart o).
Qed.

(** C8. A manager fresh from [NewRTM] or [NewRTMWithOptions] holds the
    generator [NewSafeID 1]: the first identifier it hands out is 1, any
    [n] successive calls hand out 1, 2, ..., n, and these are strictly
    increasing. *)
Theorem new_manager_generator_seed (api : Client) (options : option RTMOptions)
    (n : nat) :
  idGen (NewRTMWithOptions api options) = NewSafeID 1
  /\ idGen (NewRTM api) = NewSafeID 1
  /\ (Next (idGen (NewRTMWithOptions api options))).1 = 1
  /\ (Nexts n (idGen (NewRTMWithOptions api options))).1 = seqZ 1 (Z.of_nat n)
  /\ StronglySorted Z.lt (Nexts n (idGen (NewRTMWithOptions api options))).1.
Proof.
  assert (Hgen : idGen (NewRTMWithOptions api options) = NewSafeID 1)
    by (rewrite NewRTMWithOptions_fields; reflexivity).
  rewrite Hgen. repeat split.
  - apply Nexts_ids.
  - apply Nexts_increasing.
Qed.

(** C10. [NewRTM] builds the manager [NewRTMWithOptions] builds when it is
    given no options. *)
Theorem NewRTM_is_NewRTMWithOptions_nil (api : Client) :
  NewRTM api = NewRTMWithOptions api None.
Proof. reflexivity. Qed.

End Manager.

(** ** The calls run against the scripted server *)

Section Runs.
Import Scripted.

(** A rejected "rtm.start": the code of the reply comes back as the error,
    nothing is logged and the script is consumed. *)
Example StartRTMContext_rejected_run :
  StartRTMContext Background (world [Rejected "invalid_auth"])
  = ((None, "", Some (ErrApp "invalid_auth")),
     {| client := bot; net := []; logger := []; timers := [] |}).
Proof. reflexivity. Qed.

(** An accepted "rtm.connect" under the default timeout: the URL of the
    reply is returned as it came and the timer is disarmed again. *)
Example ConnectRTM_accepted_run :
  ConnectRTM (world [Accepted "wss://example.test/ws"])
  = ((Some "wss://example.test/ws", "wss://example.test/ws", None),
     {| client := bot; net := [];
        logger := ["Using URL: wss://example.test/ws"]; timers := [] |}).
Proof. reflexivity. Qed.

(** An unreachable server. *)
Example ConnectRTMContext_unreachable_run :
  ConnectRTMContext (WithCancel Background) (world [Unreachable "i/o timeout"])
  = ((None, "", Some (ErrFmt "post: i/o timeout")),
     {| client := bot; net := [];
        logger := ["Failed to connect to RTM: %s i/o timeout"]; timers := [] |}).
Proof. reflexivity. Qed.

(** A manager built with options that ask for "rtm.start". *)
Example NewRTMWithOptions_full_run :
  useRTMStart (NewRTMWithOptions bot (Some true)) = true
  /\ useRTMStart (NewRTMWithOptions bot (Some false)) = false
  /\ (Nexts 3 (idGen (NewRTM bot))).1 = [1; 2; 3].
Proof. repeat split. Qed.

(** [rejection_returned_verbatim] at a server that answers "invalid_auth". *)
Lemma rejection_returned_verbatim_witness :
  (StartRTMContext Background (world [Rejected "invalid_auth"])).1
    = (None, "", Some (ErrApp "invalid_auth"))
  /\ (ConnectRTMContext Background (world [Rejected "invalid_auth"])).1
    = (None, "", Some (ErrApp "invalid_auth")).
Proof.
  destruct (rejection_returned_verbatim Background (world [Rejected "invalid_auth"]))
    as [Hstart Hconnect].
  split.
  - apply (Hstart (rejected_response infoResponseFull_zero "invalid_auth") []); reflexivity.
  - apply (Hconnect (rejected_response infoResponseFull_zero "invalid_auth") []); reflexivity.
Defined.

(** [success_returns_info_and_its_url] at a server that accepts. *)
Lemma success_returns_info_and_its_url_witness :
  (StartRTMContext Background (world [Accepted "wss://example.test/ws"])).1
    = (Some "wss://example.test/ws", "wss://example.test/ws", None)
  /\ (ConnectRTMContext Background (world [Accepted "wss://example.test/ws"])).1
    = (Some "wss://example.test/ws", "wss://example.test/ws", None).
Proof.
  destruct (success_returns_info_and_its_url Background
              (world [Accepted "wss://example.test/ws"]))
    as [Hstart Hconnect].
  split.
  - apply (Hstart (accepted_response "wss://example.test/ws") []); reflexivity.
  - apply (Hconnect (accepted_response "wss://example.test/ws") []); reflexivity.
Defined.

(** [transport_failure_is_prefixed] at a server that cannot be reached. *)
Lemma transport_failure_is_prefixed_witness :
  (exists err,
     (StartRTMContext Background (world [Unreachable "i/o timeout"])).1
       = (None, "", Some err)
     /\ Error err = "post: i/o timeout"
     /\ forall a, err <> ErrApp a)
  /\
  (exists err,
     (ConnectRTMContext Background (world [Unreachable "i/o timeout"])).1
       = (None, "", Some err)
     /\ Error err = "post: i/o timeout"
     /\ forall a, err <> ErrApp a).
Proof.
  destruct (transport_failure_is_prefixed Background (world [Unreachable "i/o timeout"]))
    as [Hstart Hconnect].
  split.
  - apply (Hstart (@ErrForeign declarations "i/o timeout") infoResponseFull_zero []); reflexivity.
  - apply (Hconnect (@ErrForeign declarations "i/o timeout") infoResponseFull_zero []); reflexivity.
Defined.

End Runs.


(** ** Further properties of the negotiation calls *)

Section NegotiationEffects.
Context `{D : Declarations} `{K : !Collaborators}.

(** Unfolds a negotiation call down to its call of [post]. *)
Ltac open_call :=
  unfold StartRTM, ConnectRTM, StartRTMContext, ConnectRTMContext,
    context_WithTimeout, cancel_timeout, call_post, call_Debugln, call_Debugf,
    get_api, request, mbind, M_bind, bind, ret in *;
  cbn [client net logger timers fst snd] in *.

(** Splits a goal on the three outcomes of the call of [post]. *)
Ltac by_outcome :=
  destruct (post _ _ _ _ _ _) as [[[e|] resp] n];
  cbn [client net logger timers fst snd];
  try (destruct (Ok _); cbn [negb client net logger timers fst snd]).

(** A negotiation call sends one request: the network it leaves behind is
    the one its single call of [post] left, on the path of the method and
    under the context the caller gave (for [StartRTM] and [ConnectRTM], the
    context with the default timeout). *)
Theorem negotiation_sends_one_request (ctx : Context) (w : World) :
  net (StartRTMContext ctx w).2 = (request ctx "rtm.start" w).2
  /\ net (ConnectRTMContext ctx w).2 = (request ctx "rtm.connect" w).2
  /\ net (StartRTM w).2
     = (request (WithTimeout Background WEBSOCKET_DEFAULT_TIMEOUT) "rtm.start" w).2
  /\ net (ConnectRTM w).2
     = (request (WithTimeout Background WEBSOCKET_DEFAULT_TIMEOUT) "rtm.connect" w).2.
Proof.
  repeat split; open_call; by_outcome; reflexivity.
Qed.

(** A negotiation call returns either an Info with that Info's URL and a
    nil error, or a nil Info with the empty URL and a non-nil error; never
    an Info together with an error, and never neither. *)
Theorem negotiation_result_shape (ctx : Context) (w : World) :
  ((exists info, (StartRTMContext ctx w).1 = (Some info, Info_URL info, None))
   \/ (exists err, (StartRTMContext ctx w).1 = (None, "", Some err)))
  /\
  ((exists info, (ConnectRTMContext ctx w).1 = (Some info, Info_URL info, None))
   \/ (exists err, (ConnectRTMContext ctx w).1 = (None, "", Some err))).
Proof.
  split; open_call; by_outcome; eauto.
Qed.




(** The context timers are as they were once a negotiation call is over:
    the context-taking calls arm none, and [StartRTM] and [ConnectRTM]
    disarm the one they armed on every path, failure included. *)
Theorem negotiation_leaves_no_timer (ctx : Context) (w : World) :
  timers (StartRTMContext ctx w).2 = timers w
  /\ timers (ConnectRTMContext ctx w).2 = timers w
  /\ timers (StartRTM w).2 = timers w
  /\ timers (ConnectRTM w).2 = timers w.
Proof.
  repeat split; open_call; by_outcome;
    first [reflexivity | apply disarm_newest].
Qed.

(** The two negotiation modes differ in the path they request and in what
    they log, not in how they read the answer: if [post] answers both paths
    alike, [StartRTMContext] and [ConnectRTMContext] return the same. *)
Theorem modes_agree_on_equal_answers (ctx : Context) (w : World) :
  (request ctx "rtm.start" w).1 = (request ctx "rtm.connect" w).1 ->
  (StartRTMContext ctx w).1 = (ConnectRTMContext ctx w).1.
Proof.
  intros Hsame. open_call.
  destruct (post ctx "rtm.start" _ _ _ _) as [[es rs] ns].
  destruct (post ctx "rtm.connect" _ _ _ _) as [[ec rc] nc].
  cbn in Hsame. injection Hsame as -> ->.
  destruct ec as [e|]; cbn; [reflexivity|].
  now destruct (Ok _).
Qed.

(** A second negotiation call, after a first one of either kind and
    whatever its outcome, presents the parameters and the debug flag of the
    same client, and meets the network as the first request left it. *)
Theorem renegotiation_request (ctx ctx' : Context) (path : string) (w : World) :
  request ctx' path (StartRTMContext ctx w).2
    = post ctx' path (toParams (Client_Config (client w))) infoResponseFull_zero
        (Client_debug (client w)) (request ctx "rtm.start" w).2
  /\
  request ctx' path (ConnectRTMContext ctx w).2
    = post ctx' path (toParams (Client_Config (client w))) infoResponseFull_zero
        (Client_debug (client w)) (request ctx "rtm.connect" w).2.
Proof.
  split; open_call.
  - destruct (post ctx "rtm.start" _ _ _ _) as [[[e|] resp] n];
      cbn [client net logger timers fst snd];
      try (destruct (Ok _); cbn [negb client net logger timers fst snd]);
      reflexivity.
  - destruct (post ctx "rtm.connect" _ _ _ _) as [[[e|] resp] n];
      cbn [client net logger timers fst snd];
      try (destruct (Ok _); cbn [negb client net logger timers fst snd]);
      reflexivity.
Qed.

End NegotiationEffects.

(** ** Further properties of the manager constructors *)

Section ManagerOptions.
Context `{D : Declarations}.

(** The options reach the manager through [useRTMStart] alone: managers
    built for the same client from any two option values agree once that
    flag is set alike. *)
Theorem options_reach_only_useRTMStart (api : Client)
    (o1 o2 : option RTMOptions) (b : bool) :
  set_useRTMStart b (NewRTMWithOptions api o1)
  = set_useRTMStart b (NewRTMWithOptions api o2).
Proof.
  unfold NewRTMWithOptions.
  destruct o1 as [o1|]; [destruct (UseRTMStart o1)|];
    (destruct o2 as [o2|]; [destruct (UseRTMStart o2)|]); reflexivity.
Qed.

(** Options whose [UseRTMStart] field is false build the very manager
    [NewRTM] builds. *)
Theorem options_off_is_NewRTM (api : Client) (o : RTMOptions) :
  UseRTMStart o = false ->
  NewRTMWithOptions api (Some o) = NewRTM api.
Proof.
  intros Hoff. unfold NewRTM, NewRTMWithOptions. now rewrite Hoff.
Qed.

(** Whatever the options, a fresh manager holds a copy of the client it was
    built from, an unlocked mutex, and channels that are all open and
    empty; its four signal channels ([killChannel], [disconnected],
    [forcePing], [rawEvents]) are unbuffered. *)
Theorem new_manager_client_and_channels (api : Client) (options : option RTMOptions) :
  RTM_Client (NewRTMWithOptions api options) = api
  /\ locked (mu (NewRTMWithOptions api options)) = false
  /\ (queue (IncomingEvents (NewRTMWithOptions api options)) = []
      /\ closed (IncomingEvents (NewRTMWithOptions api options)) = false)
  /\ (queue (outgoingMessages (NewRTMWithOptions api options)) = []
      /\ closed (outgoingMessages (NewRTMWithOptions api options)) = false)
  /\ killChannel (NewRTMWithOptions api options) = make_chan bool 0
  /\ disconnected (NewRTMWithOptions api options) = make_chan unit 0
  /\ forcePing (NewRTMWithOptions api options) = make_chan bool 0
  /\ rawEvents (NewRTMWithOptions api options) = make_chan RawMessage 0.
Proof.
  unfold NewRTMWithOptions.
  destruct options as [o|]; [destruct (UseRTMStart o)|]; cbn; repeat split.
Qed.

End ManagerOptions.

(** ** The further properties at the scripted server *)

Section MoreRuns.
Import Scripted.




(** [modes_agree_on_equal_answers] at the scripted server, which answers
    without regard to the path. *)
Lemma modes_agree_on_equal_answers_witness :
  (StartRTMContext Background (world [Accepted "wss://example.test/ws"])).1
  = (ConnectRTMContext Background (world [Accepted "wss://example.test/ws"])).1.
Proof.
  apply (modes_agree_on_equal_answers Background
           (world [Accepted "wss://example.test/ws"])).
  reflexivity.
Defined.

(** [options_off_is_NewRTM] at options with the flag off. *)
Lemma options_off_is_NewRTM_witness :
  NewRTMWithOptions bot (Some false) = NewRTM bot.
Proof.
  apply (@options_off_is_NewRTM declarations bot false). reflexivity.
Defined.

End MoreRuns.
